(** * ARB translator cloud function: the /translate and /validate handlers

    A shallow embedding of [cloud-functions/main.py].  The two handlers are
    modelled on the value that [request.get_json()] hands them.

    - Python values that come out of the JSON decoder are the inductive
      [json]; a string is held in UTF-8, so that a character is one byte or
      a byte with its continuation bytes.
    - Python dictionaries are association lists in insertion order.
    - A raised exception is an explicit result.  In the handlers as they are
      modelled first, every exception is an instance of [Exception], which
      is what the handlers catch.  The module [ExceptionKinds] is the
      /translate handler with the exceptions that are not instances of
      [Exception] ([KeyboardInterrupt], [SystemExit]) told apart.
    - The file system and the translation library are an abstract world,
      reached through the interface [Platform].  The state of a run also
      carries the list of the calls the handler made, so that "called once"
      and "called in this order" can be stated.
    - The elements of [languages] are language codes, strings, as in the
      payload the docstring of [translate] documents.  They are used as
      keys of [results]; a run that meets an element that is not a string is
      outside the model. *)

From Stdlib Require Import List String Ascii ZArith Bool Arith Lia.
From Stdlib Require Import Floats.SpecFloat.
Import ListNotations.
Open Scope string_scope.

(** ** Values decoded from JSON *)

#[warnings="-register-all"]
Inductive json : Type :=
| JNull
| JBool (b : bool)
| JInt (n : Z)
| JFloat (f : spec_float)
| JStr (s : string)
| JArr (l : list json)
| JObj (d : list (string * json)).

(** A Python [dict] with string keys: pairs in insertion order, one pair
    per key. *)
Definition pydict (V : Type) : Type := list (string * V).

Section Dict.
Context {V : Type}.

Fixpoint dict_get (d : pydict V) (k : string) : option V :=
  match d with
  | [] => None
  | (k', v) :: d' => if String.eqb k k' then Some v else dict_get d' k
  end.

(** [k in d] *)
Definition dict_has (d : pydict V) (k : string) : bool :=
  match dict_get d k with Some _ => true | None => false end.

(** [d[k] = v]: an existing key keeps its place and takes the new value,
    a new key goes last. *)
Fixpoint dict_set (k : string) (v : V) (d : pydict V) : pydict V :=
  match d with
  | [] => [(k, v)]
  | (k', v') :: d' =>
      if String.eqb k k' then (k', v) :: d' else (k', v') :: dict_set k v d'
  end.

Definition dict_keys (d : pydict V) : list string := map fst d.
Definition dict_values (d : pydict V) : list V := map snd d.
End Dict.

(** [bool(v)], as [if not v] evaluates it. *)
Definition truthy (v : json) : bool :=
  match v with
  | JNull => false
  | JBool b => b
  | JInt n => negb (Z.eqb n 0)
  | JFloat (S754_zero _) => false
  | JFloat _ => true
  | JStr s => negb (String.eqb s "")
  | JArr l => match l with [] => false | _ => true end
  | JObj d => match d with [] => false | _ => true end
  end.

(** [type(v).__name__] *)
Definition type_name (v : json) : string :=
  match v with
  | JNull => "NoneType"
  | JBool _ => "bool"
  | JInt _ => "int"
  | JFloat _ => "float"
  | JStr _ => "str"
  | JArr _ => "list"
  | JObj _ => "dict"
  end.

(** ** Exceptions

    An exception is its class name and the text [str(e)], which is what the
    handlers put in their replies. *)

Record exn : Type := mk_exn { exn_class : string; str : string }.

Inductive result (A : Type) : Type :=
| Ok (a : A)
| Raise (e : exn).
Arguments Ok {A} a.
Arguments Raise {A} e.

Definition rbind {A B : Type} (r : result A) (k : A -> result B) : result B :=
  match r with
  | Ok a => k a
  | Raise e => Raise e
  end.

Declare Scope result_scope.
Delimit Scope result_scope with result.
Notation "x <-- c ;; k" := (rbind c (fun x => k))
  (at level 100, c at next level, right associativity) : result_scope.

Definition AttributeError (v : json) (attr : string) : exn :=
  mk_exn "AttributeError"
         ("'" ++ type_name v ++ "' object has no attribute '" ++ attr ++ "'").

Definition TypeError_not_iterable (v : json) : exn :=
  mk_exn "TypeError" ("'" ++ type_name v ++ "' object is not iterable").

Definition TypeError_no_len (v : json) : exn :=
  mk_exn "TypeError" ("object of type '" ++ type_name v ++ "' has no len()").

(** [v.get(key, default)] *)
Definition py_get (v : json) (key : string) (default : json) : result json :=
  match v with
  | JObj d => Ok (match dict_get d key with Some x => x | None => default end)
  | _ => Raise (AttributeError v "get")
  end.

(** [v.keys()] *)
Definition py_keys (v : json) : result (list string) :=
  match v with
  | JObj d => Ok (dict_keys d)
  | _ => Raise (AttributeError v "keys")
  end.

(** A byte that continues a character in UTF-8: [10xxxxxx]. *)
Definition is_continuation (c : ascii) : bool :=
  match c with
  | Ascii _ _ _ _ _ _ b6 b7 => b7 && negb b6
  end.

(** [chars_from current s]: the characters of [s], the first of them begun
    by the bytes [current]. *)
Fixpoint chars_from (current s : string) : list string :=
  match s with
  | EmptyString => [current]
  | String c s' =>
      if is_continuation c
      then chars_from (current ++ String c EmptyString) s'
      else current :: chars_from (String c EmptyString) s'
  end.

(** The characters (code points) of a string, each as a string of one
    character: a byte that begins a character, with the continuation bytes
    that follow it. *)
Definition chars (s : string) : list string :=
  match s with
  | EmptyString => []
  | String c s' => chars_from (String c EmptyString) s'
  end.

(** The items a [for] loop over [v] visits. *)
Definition py_iter (v : json) : result (list json) :=
  match v with
  | JArr l => Ok l
  | JStr s => Ok (map JStr (chars s))
  | JObj d => Ok (map JStr (dict_keys d))
  | _ => Raise (TypeError_not_iterable v)
  end.

(** [len(v)] *)
Definition py_len (v : json) : result nat :=
  match v with
  | JArr l => Ok (List.length l)
  | JStr s => Ok (List.length (chars s))
  | JObj d => Ok (List.length d)
  | _ => Raise (TypeError_no_len v)
  end.

(** ** Replies *)

(** One entry of [results]: [{'success': True, 'content': .., 'filePath': ..}]
    or [{'success': False, 'error': ..}]. *)
Inductive language_result : Type :=
| Translated (content : json) (filePath : string)
| Failed (error : string).

Definition success (r : language_result) : bool :=
  match r with
  | Translated _ _ => true
  | Failed _ => false
  end.

Record summary : Type := mk_summary {
  totalLanguages : nat;
  successful : nat;
  failed : nat
}.

(** The dictionary handed to [jsonify]. *)
Inductive body : Type :=
| ErrorBody (error : string)
| TranslateBody (results : pydict language_result) (s : summary)
| ValidateBody (valid : bool) (issues : list string) (keyCount : nat).

(** A reply: the body and the HTTP status. *)
Definition response : Type := (body * nat)%type.

(** ** /validate *)

(** [key.startswith('@')] *)
Definition is_metadata (key : string) : bool := String.prefix "@" key.

(** [value == '' or value is None] *)
Definition is_empty_value (value : json) : bool :=
  match value with
  | JStr s => String.eqb s ""
  | JNull => true
  | _ => false
  end.

Definition missing_locale : string := "Missing @@locale metadata".
Definition empty_value_issue (key : string) : string :=
  "Empty value for key: " ++ key.

(** The check for the locale. *)
Definition locale_issues (content : pydict json) : list string :=
  if dict_has content "@@locale" then [] else [missing_locale].

(** The loop over [content.items()]. *)
Definition flagged (item : string * json) : bool :=
  negb (is_metadata (fst item)) && is_empty_value (snd item).

Definition empty_value_issues (content : pydict json) : list string :=
  map (fun item => empty_value_issue (fst item)) (filter flagged content).

Definition collect_issues (content : json) : list string :=
  match content with
  | JObj c => locale_issues c ++ empty_value_issues c
  | _ => ["Content must be a JSON object"]
  end.

(** The body of the handler's [try]. *)
Definition validate_try (data : json) : result response :=
  (if negb (truthy data) then Ok (ErrorBody "No JSON payload provided", 400)
   else
     content <-- py_get data "content" (JObj []) ;;
     let issues := collect_issues content in
     keys <-- py_keys content ;;
     Ok (ValidateBody (Nat.eqb (List.length issues) 0)
                      issues
                      (List.length (filter (fun k => negb (is_metadata k)) keys)),
         200))%result.

Definition validate (data : json) : response :=
  match validate_try data with
  | Ok r => r
  | Raise e => (ErrorBody ("Validation failed: " ++ str e), 500)
  end.

(** ** The world of /translate

    The handler reaches the translation library and the file system through
    the calls below.  Each one takes the world and gives back a result (or
    an exception) and the world after it. *)

Class Platform (W : Type) : Type := {
  (** [get_translator()] *)
  get_translator : W -> result unit * W;
  (** [tempfile.NamedTemporaryFile(mode='w', suffix='.arb', delete=False)]:
      the name of the file it created *)
  NamedTemporaryFile : W -> result string * W;
  (** [json.dump(content, f, indent=2, ensure_ascii=False)] *)
  json_dump : json -> string -> W -> result unit * W;
  (** leaving the [with] block closes the file *)
  close : string -> W -> result unit * W;
  (** [translator.generate_for_language(source_path, language)] *)
  generate_for_language : string -> string -> W -> result string * W;
  (** [with open(target_path, 'r', encoding='utf-8') as f: json.load(f)] *)
  load_translated : string -> W -> result json * W;
  (** [os.unlink(path)] *)
  unlink : string -> W -> result unit * W
}.

(** What the handler did, in the order it did it. *)
Inductive event : Type :=
| EvCreate (path : string)
| EvGenerate (source_path language : string)
| EvStore (language : string) (r : language_result)
| EvUnlink (path : string).

Record state (W : Type) : Type := mk_state {
  world : W;
  trace : list event
}.
Arguments mk_state {W} world trace.
Arguments world {W} s.
Arguments trace {W} s.

(** A computation of the handler.  [None] is a run that left the modelled
    fragment: an element of [languages] that is not a string. *)
Definition M (W A : Type) : Type := state W -> option (result A * state W).

Section Monad.
Context {W : Type}.

Definition ret {A : Type} (a : A) : M W A := fun s => Some (Ok a, s).

Definition stuck {A : Type} : M W A := fun _ => None.

Definition bind {A B : Type} (m : M W A) (k : A -> M W B) : M W B :=
  fun s =>
    match m s with
    | Some (Ok a, s') => k a s'
    | Some (Raise e, s') => Some (Raise e, s')
    | None => None
    end.

Definition lift {A : Type} (r : result A) : M W A := fun s => Some (r, s).

(** A call into the platform. *)
Definition call {A : Type} (f : W -> result A * W) : M W A :=
  fun s => let (r, w) := f (world s) in Some (r, mk_state w (trace s)).

Definition emit (ev : event) : M W unit :=
  fun s => Some (Ok tt, mk_state (world s) (trace s ++ [ev])).

(** [try: m  except Exception as e: handler e] *)
Definition try_except {A : Type} (m : M W A) (handler : exn -> M W A) : M W A :=
  fun s =>
    match m s with
    | Some (Raise e, s') => handler e s'
    | other => other
    end.

(** [try: m  finally: final]; also a [with] block, [final] being the exit
    of the context manager.  An exception of [final] replaces the outcome
    of [m]. *)
Definition try_finally {A : Type} (m : M W A) (final : M W unit) : M W A :=
  fun s =>
    match m s with
    | Some (r, s') =>
        match final s' with
        | Some (Ok _, s'') => Some (r, s'')
        | Some (Raise e, s'') => Some (Raise e, s'')
        | None => None
        end
    | None => None
    end.
End Monad.

Declare Scope handler_scope.
Delimit Scope handler_scope with handler.
Notation "x <- c ;; k" := (bind c (fun x => k))
  (at level 100, c at next level, right associativity) : handler_scope.
Notation "c ;; k" := (bind c (fun _ => k))
  (at level 100, right associativity) : handler_scope.

(** ** /translate *)

Section Translate.
Context {W : Type} {P : Platform W}.
Open Scope handler_scope.

(** The [with tempfile.NamedTemporaryFile(...) as f] block. *)
Definition stage (content : json) : M W string :=
  f <- call NamedTemporaryFile ;;
  emit (EvCreate f) ;;
  try_finally (call (json_dump content f)) (call (close f)) ;;
  ret f.

(** [results[language] = r] *)
Definition store (language : string) (r : language_result)
           (results : pydict language_result) : M W (pydict language_result) :=
  emit (EvStore language r) ;;
  ret (dict_set language r results).

(** The two calls of the inner [try]. *)
Definition provider_call (source_path language : string) : M W (json * string) :=
  emit (EvGenerate source_path language) ;;
  target_path <- call (generate_for_language source_path language) ;;
  translated_content <- call (load_translated target_path) ;;
  ret (translated_content, target_path).

(** The inner [try ... except Exception as e] for one language code. *)
Definition attempt (source_path language : string)
           (results : pydict language_result) : M W (pydict language_result) :=
  try_except
    (r <- provider_call source_path language ;;
     store language (Translated (fst r) (snd r)) results)
    (fun e => store language (Failed (str e)) results).

(** The body of [for language in languages]. *)
Fixpoint for_languages (source_path : string) (items : list json)
         (results : pydict language_result) : M W (pydict language_result) :=
  match items with
  | [] => ret results
  | JStr language :: rest =>
      results' <- attempt source_path language results ;;
      for_languages source_path rest results'
  | _ :: _ => stuck
  end.

(** [try: os.unlink(source_path)  except: pass] *)
Definition cleanup (source_path : string) : M W unit :=
  try_except (emit (EvUnlink source_path) ;; call (unlink source_path))
             (fun _ => ret tt).

(** [for language in languages: ...], the body of the outer [try]. *)
Definition language_loop (source_path : string) (languages : json)
  : M W (pydict language_result) :=
  items <- lift (py_iter languages) ;;
  for_languages source_path items [].

Definition summarize (languages : nat) (results : pydict language_result) : summary :=
  {| totalLanguages := languages;
     successful := List.length (filter success (dict_values results));
     failed := List.length (filter (fun r => negb (success r)) (dict_values results)) |}.

(** The handler once the request is accepted: obtain the translator, write
    the source file, translate into every language, clean up, reply. *)
Definition translate_all (content languages : json) : M W response :=
  call get_translator ;;
  source_path <- stage content ;;
  results <- try_finally (language_loop source_path languages)
                         (cleanup source_path) ;;
  total <- lift (py_len languages) ;;
  ret (TranslateBody results (summarize total results), 200).

Definition translate (data : json) : M W response :=
  try_except
    (if negb (truthy data) then ret (ErrorBody "No JSON payload provided", 400)
     else
       content <- lift (py_get data "content" (JObj [])) ;;
       languages <- lift (py_get data "languages" (JArr [])) ;;
       source_language <- lift (py_get data "sourceLanguage" (JStr "en")) ;;
       if negb (truthy content) then ret (ErrorBody "No content provided", 400)
       else if negb (truthy languages)
       then ret (ErrorBody "No target languages specified", 400)
       else translate_all content languages)
    (fun e => ret (ErrorBody ("Translation failed: " ++ str e), 500)).
End Translate.

(** ** Reading a trace *)

Definition created (t : list event) : list string :=
  flat_map (fun ev => match ev with EvCreate p => [p] | _ => [] end) t.

Definition generated (t : list event) : list (string * string) :=
  flat_map (fun ev => match ev with EvGenerate p l => [(p, l)] | _ => [] end) t.

Definition stored (t : list event) : list (string * language_result) :=
  flat_map (fun ev => match ev with EvStore l r => [(l, r)] | _ => [] end) t.

Definition unlinked (t : list event) : list string :=
  flat_map (fun ev => match ev with EvUnlink p => [p] | _ => [] end) t.

(** A sequence of assignments [results[k] = v], applied in order. *)
Definition apply_writes {V : Type} (ws : list (string * V)) (d : pydict V) : pydict V :=
  fold_left (fun acc w => dict_set (fst w) (snd w) acc) ws d.


(** The request got past the three checks of the handler: [data] is a
    non-empty object, [content] and [languages] are what the two [get]
    calls return, and neither is empty. *)
Definition accepted (data content languages : json) : Prop :=
  truthy data = true /\
  py_get data "content" (JObj []) = Ok content /\
  py_get data "languages" (JArr []) = Ok languages /\
  truthy content = true /\
  truthy languages = true.

Section Runs.
Context {W : Type} {P : Platform W}.

(** The handler obtained its translator from [s] and wrote the source file
    [source_path], which left it in [s1]. *)
Definition staged (content : json) (s : state W) (source_path : string)
           (s1 : state W) : Prop :=
  exists s0, call get_translator s = Some (Ok tt, s0) /\
             stage content s0 = Some (Ok source_path, s1).


(** What one attempt stores for [language] when it starts in [s]. *)
Definition attempt_result (source_path language : string) (s : state W)
  : language_result :=
  match provider_call source_path language s with
  | Some (Ok r, _) => Translated (fst r) (snd r)
  | Some (Raise e, _) => Failed (str e)
  | None => Failed ""
  end.

(** The reply the handler gives once the loop over [languages] has ended
    with [r] and the [finally] block has run: the results and their
    summary, or the 500 reply of the outer [except]. *)
Definition reply_for (languages : json) (r : result (pydict language_result))
  : response :=
  match r with
  | Ok results =>
      match py_len languages with
      | Ok total => (TranslateBody results (summarize total results), 200)
      | Raise e => (ErrorBody ("Translation failed: " ++ str e), 500)
      end
  | Raise e => (ErrorBody ("Translation failed: " ++ str e), 500)
  end.
End Runs.

(** ** A small platform to run the handlers on

    The world is the set of files on disk and the number of calls made to
    the provider so far.  A configuration chooses which calls fail. *)

Record demo_world : Type := mk_demo_world {
  files : list string;
  calls : nat
}.

Record demo_config : Type := mk_demo_config {
  create_fails : bool;
  dump_fails : bool;
  unlink_fails : bool;
  failing_calls : list nat
}.

Definition demo_source : string := "/tmp/tmpk3v9.arb".

Definition demo_platform (cfg : demo_config) : Platform demo_world := {|
  get_translator := fun w => (Ok tt, w);
  NamedTemporaryFile := fun w =>
    if create_fails cfg
    then (Raise (mk_exn "OSError" "[Errno 28] No space left on device"), w)
    else (Ok demo_source, mk_demo_world (demo_source :: files w) (calls w));
  json_dump := fun _ _ w =>
    if dump_fails cfg
    then (Raise (mk_exn "OSError" "[Errno 5] Input/output error"), w)
    else (Ok tt, w);
  close := fun _ w => (Ok tt, w);
  generate_for_language := fun _ language w =>
    let w' := mk_demo_world (files w) (S (calls w)) in
    if existsb (Nat.eqb (calls w)) (failing_calls cfg)
    then (Raise (mk_exn "RuntimeError" ("provider unavailable for " ++ language)), w')
    else (Ok ("/tmp/app_" ++ language ++ ".arb"), w');
  load_translated := fun target_path w =>
    (Ok (JObj [("translated_from", JStr target_path)]), w);
  unlink := fun path w =>
    if unlink_fails cfg
    then (Raise (mk_exn "PermissionError" "[Errno 13] Permission denied"), w)
    else (Ok tt, mk_demo_world (filter (fun f => negb (String.eqb f path)) (files w))
                               (calls w))
|}.

Definition demo_start : state demo_world := mk_state (mk_demo_world [] 0) [].

(** Every call succeeds. *)
Definition all_fine : demo_config := mk_demo_config false false false [].

(** The second call to the provider fails. *)
Definition second_call_fails : demo_config := mk_demo_config false false false [1].

(** The first call to the provider fails. *)
Definition first_call_fails : demo_config := mk_demo_config false false false [0].

(** [json.dump] fails. *)
Definition dump_fails_only : demo_config := mk_demo_config false true false [].


Definition demo_content : json := JObj [("a", JStr "b")].

Definition demo_languages (codes : list string) : json := JArr (map JStr codes).

(** [{"content": {"a": "b"}, "languages": codes}] *)
Definition demo_request (codes : list string) : json :=
  JObj [("content", demo_content); ("languages", demo_languages codes)].

(** The state of the small platform once the source file is written. *)
Definition demo_staged : state demo_world :=
  mk_state (mk_demo_world [demo_source] 0) [EvCreate demo_source].



(** ** The translator of the process and /analytics

    [_translator] is a variable of the module, assigned by
    [get_translator] alone.  A process is that variable and the rest of the
    world (the environment variables, the translation library); it also
    counts how many times the translator was constructed. *)

Module Singleton.

(** The keyword arguments of [TranslatorConfig(...)]; an API key is what
    [os.getenv] returned, [None] when the variable is not set. *)
Record TranslatorConfig : Type := mk_config {
  preferredProvider : string;
  apiKeys : pydict (option string);
  logLevel : string;
  enableAnalytics : bool;
  enableCaching : bool
}.

(** What the handlers use of the interpreter and of the library:
    [os.getenv(name)] and [LocalizationTranslator(TranslatorConfig(...))]. *)
Class Library (T E : Type) : Type := {
  getenv : string -> E -> option string;
  LocalizationTranslator : TranslatorConfig -> E -> result T * E
}.

Record process (T E : Type) : Type := mk_process {
  _translator : option T;
  constructions : nat;
  outside : E
}.
Arguments mk_process {T E} _ _ _.
Arguments _translator {T E} p.
Arguments constructions {T E} p.
Arguments outside {T E} p.

Section Process.
Context {T E : Type} {L : Library T E}.

Definition config (e : E) : TranslatorConfig :=
  {| preferredProvider := "openai";
     apiKeys := [("openai", getenv "OPENAI_API_KEY" e);
                 ("deepl", getenv "DEEPL_API_KEY" e);
                 ("azure", getenv "AZURE_TRANSLATOR_KEY" e);
                 ("google", getenv "GOOGLE_TRANSLATE_API_KEY" e)];
     logLevel := "INFO";
     enableAnalytics := true;
     enableCaching := true |}.

Definition get_translator (p : process T E) : result T * process T E :=
  match _translator p with
  | None =>
      match LocalizationTranslator (config (outside p)) (outside p) with
      | (Ok t, e) => (Ok t, mk_process (Some t) (S (constructions p)) e)
      | (Raise x, e) => (Raise x, mk_process None (S (constructions p)) e)
      end
  | Some t => (Ok t, p)
  end.

(** The dictionary [get_analytics] hands to [jsonify]. *)
Inductive analytics_body : Type :=
| Analytics (totalTranslations : Z) (successRate : spec_float)
            (averageResponseTime : Z) (providersUsed : list string)
            (timestamp : string)
| AnalyticsError (error : string).

(** The float [0.95]. *)
Definition successRate_095 : spec_float :=
  S754_finite false 8556839292003942 (-53).

Definition get_analytics (p : process T E) : (analytics_body * nat) * process T E :=
  match get_translator p with
  | (Ok translator, p') =>
      ((Analytics 0 successRate_095 2500 ["openai"; "deepl"]
                  "2024-01-01T00:00:00Z", 200), p')
  | (Raise e, p') =>
      ((AnalyticsError ("Analytics unavailable: " ++ str e), 500), p')
  end.

(** [n] requests to /analytics, one after the other: the replies, first to
    last, and the process they leave. *)
Fixpoint serve_analytics (n : nat) (p : process T E)
  : list (analytics_body * nat) * process T E :=
  match n with
  | O => ([], p)
  | S n' =>
      let (reply, p') := get_analytics p in
      let (replies, p'') := serve_analytics n' p' in
      (reply :: replies, p'')
  end.
End Process.

(** A library whose constructor fails while the variable [TRANSLATOR_DOWN]
    is set; constructing the translator with it unset gives the API key of
    OpenAI as the translator. *)
Definition demo_library : Library (option string) (pydict string) := {|
  getenv := fun name e => dict_get e name;
  LocalizationTranslator := fun cfg e =>
    if dict_has e "TRANSLATOR_DOWN"
    then (Raise (mk_exn "ValueError" "no provider configured"), e)
    else (Ok (match dict_get (apiKeys cfg) "openai" with
              | Some key => key
              | None => None
              end), e)
|}.

Definition demo_process (e : pydict string) : process (option string) (pydict string) :=
  mk_process None 0 e.

End Singleton.

(** ** What the provider gives

    The results the handler is to store, read off the platform alone: the
    two calls of the inner [try] made in world [w], and the same for a list
    of codes, each call made in the world the one before it left. *)

Section Outcomes.
Context {W : Type} {P : Platform W}.



(** The events of the loop over [codes] when the attempts give [rs]. *)
Definition loop_events (source_path : string) (codes : list string)
           (rs : list language_result) : list event :=
  flat_map (fun cr => [EvGenerate source_path (fst cr); EvStore (fst cr) (snd cr)])
           (combine codes rs).
End Outcomes.

(** ** The two kinds of exception

    [except Exception] does not catch the exceptions that derive from
    [BaseException] directly ([KeyboardInterrupt], [SystemExit],
    [GeneratorExit]); the bare [except] of the cleanup catches everything.
    This module is the handler with that difference written out.  A run
    that ends in [Raise e] is a handler that lets [e] out instead of
    returning a reply. *)

Module ExceptionKinds.

(** [isinstance(e, Exception)], by the name of the class: the built-in
    classes that do not derive from [Exception] are listed, any other class
    is taken to derive from it. *)
Definition is_Exception (e : exn) : bool :=
  negb (existsb (String.eqb (exn_class e))
                ["BaseException"; "BaseExceptionGroup"; "GeneratorExit";
                 "KeyboardInterrupt"; "SystemExit"]).

Section Handler.
Context {W : Type} {P : Platform W}.
Open Scope handler_scope.

(** [try: m  except Exception as e: handler e] *)
Definition try_except_Exception {A : Type} (m : M W A) (handler : exn -> M W A)
  : M W A :=
  fun s =>
    match m s with
    | Some (Raise e, s') =>
        if is_Exception e then handler e s' else Some (Raise e, s')
    | other => other
    end.

Definition attempt (source_path language : string)
           (results : pydict language_result) : M W (pydict language_result) :=
  try_except_Exception
    (r <- provider_call source_path language ;;
     store language (Translated (fst r) (snd r)) results)
    (fun e => store language (Failed (str e)) results).

Fixpoint for_languages (source_path : string) (items : list json)
         (results : pydict language_result) : M W (pydict language_result) :=
  match items with
  | [] => ret results
  | JStr language :: rest =>
      results' <- attempt source_path language results ;;
      for_languages source_path rest results'
  | _ :: _ => stuck
  end.

Definition language_loop (source_path : string) (languages : json)
  : M W (pydict language_result) :=
  items <- lift (py_iter languages) ;;
  for_languages source_path items [].

Definition translate_all (content languages : json) : M W response :=
  call get_translator ;;
  source_path <- stage content ;;
  results <- try_finally (language_loop source_path languages)
                         (cleanup source_path) ;;
  total <- lift (py_len languages) ;;
  ret (TranslateBody results (summarize total results), 200).

Definition translate (data : json) : M W response :=
  try_except_Exception
    (if negb (truthy data) then ret (ErrorBody "No JSON payload provided", 400)
     else
       content <- lift (py_get data "content" (JObj [])) ;;
       languages <- lift (py_get data "languages" (JArr [])) ;;
       source_language <- lift (py_get data "sourceLanguage" (JStr "en")) ;;
       if negb (truthy content) then ret (ErrorBody "No content provided", 400)
       else if negb (truthy languages)
       then ret (ErrorBody "No target languages specified", 400)
       else translate_all content languages)
    (fun e => ret (ErrorBody ("Translation failed: " ++ str e), 500)).

End Handler.

End ExceptionKinds.



(** * Properties *)

(** ** Dictionaries *)

Section DictFacts.
Context {V : Type}.

Lemma dict_get_In (d : pydict V) (k : string) (v : V) :
  dict_get d k = Some v -> In (k, v) d.
Proof.
  induction d as [|[k' v'] d IH]; simpl; [discriminate|].
  destruct (String.eqb_spec k k') as [->|Hne].
  - intros [= ->]. now left.
  - intros Hget. right. now apply IH.
Qed.

Lemma dict_get_None (d : pydict V) (k : string) :
  dict_get d k = None <-> ~ In k (dict_keys d).
Proof.
  induction d as [|[k' v'] d IH]; simpl.
  - tauto.
  - destruct (String.eqb_spec k k') as [->|Hne].
    + split; [discriminate | intros Hn; exfalso; apply Hn; now left].
    + rewrite IH. split.
      * intros Hn [Heq|Hin]; [now apply Hne | now apply Hn].
      * intros Hn Hin. apply Hn. now right.
Qed.

Lemma dict_has_In (d : pydict V) (k : string) :
  dict_has d k = true <-> In k (dict_keys d).
Proof.
  unfold dict_has. destruct (dict_get d k) eqn:Hget.
  - split; [intros _ | reflexivity].
    apply dict_get_In in Hget. now apply (in_map fst) in Hget.
  - split; [discriminate|]. intros Hin. now apply dict_get_None in Hget.
Qed.

(** A key of a dictionary has one value. *)
Lemma dict_value_unique (d : pydict V) (k : string) (v v' : V) :
  NoDup (dict_keys d) -> In (k, v) d -> In (k, v') d -> v = v'.
Proof.
  induction d as [|[k0 v0] d IH]; simpl; [tauto|].
  intros Hnd H1 H2. inversion Hnd as [|? ? Hnotin Hnd']; subst.
  destruct H1 as [H1|H1], H2 as [H2|H2].
  - congruence.
  - injection H1 as -> _. exfalso. apply Hnotin. now apply (in_map fst) in H2.
  - injection H2 as -> _. exfalso. apply Hnotin. now apply (in_map fst) in H1.
  - now apply IH.
Qed.

Lemma dict_get_set (d : pydict V) (k k' : string) (v : V) :
  dict_get (dict_set k v d) k' = if String.eqb k' k then Some v else dict_get d k'.
Proof.
  induction d as [|[k0 v0] d IH]; simpl.
  - reflexivity.
  - destruct (String.eqb_spec k k0) as [->|Hne]; simpl.
    + destruct (String.eqb_spec k' k0); reflexivity.
    + rewrite IH. destruct (String.eqb_spec k' k0) as [->|Hne'].
      * destruct (String.eqb_spec k0 k) as [<-|_]; [now elim Hne | reflexivity].
      * reflexivity.
Qed.

Lemma dict_keys_set (d : pydict V) (k : string) (v : V) :
  dict_keys (dict_set k v d) =
  if dict_has d k then dict_keys d else (dict_keys d ++ [k])%list.
Proof.
  unfold dict_has. induction d as [|[k0 v0] d IH]; simpl.
  - reflexivity.
  - destruct (String.eqb_spec k k0) as [->|Hne]; simpl.
    + reflexivity.
    + rewrite IH.
      destruct (dict_get d k); reflexivity.
Qed.




Lemma apply_writes_keys_NoDup (ws : list (string * V)) (d : pydict V) :
  NoDup (dict_keys d) -> NoDup (dict_keys (apply_writes ws d)).
Proof.
  revert d. induction ws as [|[k v] ws IH]; intros d Hnd; simpl; [assumption|].
  apply IH. rewrite dict_keys_set.
  destruct (dict_has d k) eqn:Hhas; [assumption|].
  apply NoDup_app; repeat split; try assumption.
  - constructor; [simpl; tauto | constructor].
  - intros x Hx [<-|[]].
    apply dict_has_In in Hx. congruence.
Qed.

Lemma apply_writes_keys (ws : list (string * V)) (d : pydict V) (k : string) :
  In k (dict_keys (apply_writes ws d)) <-> In k (dict_keys d) \/ In k (map fst ws).
Proof.
  revert d. induction ws as [|[k' v] ws IH]; intros d; simpl.
  - tauto.
  - unfold apply_writes in *. simpl. rewrite IH, dict_keys_set.
    destruct (dict_has d k') eqn:Hhas.
    + apply dict_has_In in Hhas. split; [tauto|].
      intros [H|[<-|H]]; tauto.
    + rewrite in_app_iff. simpl. tauto.
Qed.
End DictFacts.

(** ** /validate *)

Lemma append_inj_l (p a b : string) : p ++ a = p ++ b -> a = b.
Proof.
  induction p as [|c p IH]; simpl; [trivial|].
  intros [= H]. now apply IH.
Qed.

Lemma empty_value_issue_inj (k k' : string) :
  empty_value_issue k = empty_value_issue k' -> k = k'.
Proof. apply append_inj_l. Qed.

Lemma empty_value_issue_not_locale (k : string) :
  empty_value_issue k <> missing_locale.
Proof. unfold empty_value_issue, missing_locale. simpl. discriminate. Qed.

Lemma is_empty_value_true (v : json) :
  is_empty_value v = true <-> v = JStr "" \/ v = JNull.
Proof.
  split.
  - destruct v; simpl; try discriminate; [now right|].
    intros H. apply String.eqb_eq in H. subst. now left.
  - intros [->| ->]; reflexivity.
Qed.

Lemma empty_value_issues_In (c : pydict json) (k : string) :
  In (empty_value_issue k) (empty_value_issues c) <->
  exists v, In (k, v) c /\ is_metadata k = false /\ is_empty_value v = true.
Proof.
  unfold empty_value_issues. rewrite in_map_iff. split.
  - intros [[k' v] [Heq Hin]]. simpl in Heq. apply empty_value_issue_inj in Heq.
    subst k'. apply filter_In in Hin. destruct Hin as [Hin Hfl].
    unfold flagged in Hfl. simpl in Hfl. apply andb_true_iff in Hfl.
    destruct Hfl as [Hmeta Hempty]. apply negb_true_iff in Hmeta. eauto.
  - intros [v [Hin [Hmeta Hempty]]]. exists (k, v). split; [reflexivity|].
    apply filter_In. split; [assumption|].
    unfold flagged. simpl. now rewrite Hmeta, Hempty.
Qed.

Lemma missing_locale_In (c : pydict json) :
  In missing_locale (locale_issues c ++ empty_value_issues c) <->
  dict_get c "@@locale" = None.
Proof.
  rewrite in_app_iff. unfold locale_issues, dict_has.
  destruct (dict_get c "@@locale") eqn:Hget; simpl.
  - split; [|discriminate]. intros [[]|Hin].
    unfold empty_value_issues in Hin. apply in_map_iff in Hin.
    destruct Hin as [item [Heq _]]. now apply empty_value_issue_not_locale in Heq.
  - split; [reflexivity | intros _; now left; left].
Qed.

(** What the handler answers when [content] is an object. *)
Lemma validate_object (data : json) (c : pydict json) :
  truthy data = true ->
  py_get data "content" (JObj []) = Ok (JObj c) ->
  validate data =
  (ValidateBody
     (Nat.eqb (List.length (locale_issues c ++ empty_value_issues c)) 0)
     (locale_issues c ++ empty_value_issues c)
     (List.length (filter (fun k => negb (is_metadata k)) (dict_keys c))),
   200).
Proof.
  intros Htruthy Hcontent. unfold validate, validate_try.
  rewrite Htruthy. simpl. rewrite Hcontent. reflexivity.
Qed.

(** What the handler answers when [content] is anything else. *)
Lemma validate_not_object (data content : json) :
  truthy data = true ->
  py_get data "content" (JObj []) = Ok content ->
  (forall c, content <> JObj c) ->
  validate data =
  (ErrorBody ("Validation failed: '" ++ type_name content
              ++ "' object has no attribute 'keys'"), 500).
Proof.
  intros Htruthy Hcontent Hshape. unfold validate, validate_try.
  rewrite Htruthy. simpl. rewrite Hcontent. simpl.
  destruct content; try reflexivity. now elim (Hshape d).
Qed.

(** C4 (the code departs from the claim).  When [content] is present and is
    not an object, the handler does record the single issue, but building
    the reply evaluates [content.keys()], which raises [AttributeError]; the
    reply is the 500 error of the outer [except], not a report.  Shown at
    [{"content": [1, 2]}]. *)
Theorem validate_list_content_is_500 :
  collect_issues (JArr [JInt 1; JInt 2]) = ["Content must be a JSON object"] /\
  validate (JObj [("content", JArr [JInt 1; JInt 2])]) =
  (ErrorBody "Validation failed: 'list' object has no attribute 'keys'", 500).
Proof. split; reflexivity. Qed.

(** C6.  For a request whose [content] is an object, the handler answers 200
    with a report in which: the locale issue is present exactly when the key
    [@@locale] is absent; every key that does not start with [@] and whose
    value is the empty string or null has its "Empty value" issue; the
    issues are the locale check followed by the empty-value check, neither
    depending on the other; [keyCount] is the number of keys that do not
    start with [@]; and [valid] holds exactly when there is no issue. *)
Theorem validate_mapping_report (data : json) (c : pydict json) :
  truthy data = true ->
  py_get data "content" (JObj []) = Ok (JObj c) ->
  exists valid issues keyCount,
    validate data = (ValidateBody valid issues keyCount, 200) /\
    (In missing_locale issues <-> dict_get c "@@locale" = None) /\
    (forall key value,
        In (key, value) c -> is_metadata key = false ->
        value = JStr "" \/ value = JNull ->
        In (empty_value_issue key) issues) /\
    issues = (locale_issues c ++ empty_value_issues c)%list /\
    keyCount = List.length (filter (fun k => negb (is_metadata k)) (dict_keys c)) /\
    (valid = true <-> issues = []).
Proof.
  intros Htruthy Hcontent.
  eexists _, _, _. split; [apply (validate_object data c); assumption|].
  split; [apply missing_locale_In|].
  split.
  { intros key value Hin Hmeta Hval. apply in_or_app. right.
    apply empty_value_issues_In. exists value.
    now rewrite is_empty_value_true. }
  split; [reflexivity|]. split; [reflexivity|].
  rewrite Nat.eqb_eq. apply length_zero_iff_nil.
Qed.

Lemma validate_mapping_report_witness :
  exists valid issues keyCount,
    validate (JObj [("content", JObj [("hello", JStr "")])]) =
    (ValidateBody valid issues keyCount, 200) /\
    In missing_locale issues /\ In (empty_value_issue "hello") issues /\
    keyCount = 1 /\ valid = false.
Proof.
  destruct (validate_mapping_report
              (JObj [("content", JObj [("hello", JStr "")])])
              [("hello", JStr "")] eq_refl eq_refl)
    as [valid [issues [keyCount [Hv [Hloc [Hempty [Hissues [Hcount Hvalid]]]]]]]].
  exists valid, issues, keyCount. split; [exact Hv|].
  split; [apply (proj2 Hloc); reflexivity|].
  split; [apply (Hempty "hello" (JStr "")); [now left | reflexivity | now left]|].
  split; [exact Hcount|].
  destruct valid; [|reflexivity].
  destruct Hvalid as [Hnil _]. rewrite Hissues in Hnil.
  specialize (Hnil eq_refl). discriminate Hnil.
Defined.

(** C9 as stated fails at the body [{}]: it lacks [content], and the handler
    rejects it with 400, because an empty object is falsy in
    [if not data]. *)
Lemma validate_empty_body_is_400 :
  dict_get (V:=json) [] "content" = None /\
  validate (JObj []) = (ErrorBody "No JSON payload provided", 400) /\
  validate (JObj []) <> (ValidateBody false [missing_locale] 0, 200).
Proof. repeat split; discriminate. Qed.

(** C9, amended.  For a body that is an object with at least one key and
    without the key [content], the content defaults to the empty object and
    the handler answers 200 with [valid = false], the single issue
    "Missing @@locale metadata" and [keyCount = 0]. *)
Theorem validate_without_content (d : pydict json) :
  d <> [] ->
  dict_get d "content" = None ->
  validate (JObj d) = (ValidateBody false ["Missing @@locale metadata"] 0, 200).
Proof.
  intros Hne Hget.
  rewrite (validate_object (JObj d) []).
  - reflexivity.
  - destruct d; [now elim Hne | reflexivity].
  - simpl. now rewrite Hget.
Qed.

Lemma validate_without_content_witness :
  validate (JObj [("bundle", JObj [("a", JStr "b")])]) =
  (ValidateBody false ["Missing @@locale metadata"] 0, 200).
Proof.
  apply (validate_without_content [("bundle", JObj [("a", JStr "b")])]).
  - discriminate.
  - reflexivity.
Defined.

(** C10.  In a request whose [content] is an object, a key that does not
    start with [@] and whose value is neither the empty string nor null
    (a number, a boolean, a list, an object, a non-empty string) gets no
    "Empty value" issue and is one of the keys [keyCount] counts; and
    [{"@@locale": "en", "a": 5}] is reported valid. *)
Theorem validate_flags_only_empty (data : json) (c : pydict json)
        (key : string) (value : json) :
  truthy data = true ->
  py_get data "content" (JObj []) = Ok (JObj c) ->
  NoDup (dict_keys c) ->
  In (key, value) c ->
  is_metadata key = false ->
  value <> JStr "" ->
  value <> JNull ->
  (exists valid issues keyCount,
      validate data = (ValidateBody valid issues keyCount, 200) /\
      ~ In (empty_value_issue key) issues /\
      In key (filter (fun k => negb (is_metadata k)) (dict_keys c)) /\
      keyCount = List.length (filter (fun k => negb (is_metadata k)) (dict_keys c))) /\
  validate (JObj [("content", JObj [("@@locale", JStr "en"); ("a", JInt 5)])]) =
  (ValidateBody true [] 1, 200).
Proof.
  intros Htruthy Hcontent Hnodup Hin Hmeta Hstr Hnull.
  split; [|reflexivity].
  eexists _, _, _. split; [apply (validate_object data c); assumption|].
  split; [|split; [|reflexivity]].
  - intros Hissue. apply in_app_or in Hissue. destruct Hissue as [Hloc|Hempty].
    + unfold locale_issues in Hloc.
      destruct (dict_has c "@@locale"); simpl in Hloc; [tauto|].
      destruct Hloc as [Heq|[]]. symmetry in Heq.
      now apply empty_value_issue_not_locale in Heq.
    + apply empty_value_issues_In in Hempty.
      destruct Hempty as [v [Hin' [_ Hv]]].
      assert (v = value) by (eapply dict_value_unique; eassumption). subst v.
      apply is_empty_value_true in Hv. tauto.
  - apply filter_In. split.
    + now apply (in_map fst) in Hin.
    + now rewrite Hmeta.
Qed.

Lemma validate_flags_only_empty_witness :
  exists valid issues keyCount,
    validate (JObj [("content", JObj [("a", JBool false); ("b", JStr "")])]) =
    (ValidateBody valid issues keyCount, 200) /\
    ~ In (empty_value_issue "a") issues /\ keyCount = 2.
Proof.
  destruct (validate_flags_only_empty
              (JObj [("content", JObj [("a", JBool false); ("b", JStr "")])])
              [("a", JBool false); ("b", JStr "")] "a" (JBool false))
    as [[valid [issues [keyCount [Hv [Hno [_ Hcount]]]]]] _].
  - reflexivity.
  - reflexivity.
  - repeat constructor; simpl; intuition discriminate.
  - now left.
  - reflexivity.
  - discriminate.
  - discriminate.
  - exists valid, issues, keyCount. auto.
Defined.

(** ** Python built-ins *)

(** [len] of what a loop ran over is the number of items it visited. *)
Lemma py_iter_len (v : json) (items : list json) :
  py_iter v = Ok items -> py_len v = Ok (List.length items).
Proof.
  destruct v; simpl; try discriminate; intros [= <-].
  - now rewrite length_map.
  - reflexivity.
  - unfold dict_keys. now rewrite !length_map.
Qed.

Lemma py_get_object (data : json) (key : string) (default v : json) :
  py_get data key default = Ok v -> exists d, data = JObj d.
Proof. destruct data; simpl; try discriminate. eauto. Qed.

(** ** Reading a trace *)

Lemma generated_app (t u : list event) :
  generated (t ++ u) = (generated t ++ generated u)%list.
Proof. apply flat_map_app. Qed.

Lemma stored_app (t u : list event) :
  stored (t ++ u) = (stored t ++ stored u)%list.
Proof. apply flat_map_app. Qed.

Lemma unlinked_app (t u : list event) :
  unlinked (t ++ u) = (unlinked t ++ unlinked u)%list.
Proof. apply flat_map_app. Qed.

Lemma created_app (t u : list event) :
  created (t ++ u) = (created t ++ created u)%list.
Proof. apply flat_map_app. Qed.

(** ** The steps of /translate *)

Section TranslateFacts.
Context {W : Type} {P : Platform W}.

Lemma call_eq {A : Type} (f : W -> result A * W) (s : state W) :
  call f s = Some (fst (f (world s)), mk_state (snd (f (world s))) (trace s)).
Proof. unfold call. now destruct (f (world s)). Qed.

(** The provider call always comes back, and it logs the call. *)
Lemma provider_call_trace (source_path language : string) (s : state W) :
  exists r s',
    provider_call source_path language s = Some (r, s') /\
    trace s' = (trace s ++ [EvGenerate source_path language])%list.
Proof.
  unfold provider_call, bind, emit, ret. rewrite call_eq. simpl.
  destruct (generate_for_language source_path language (world s)) as [[t|e] w];
    simpl; [|eauto].
  rewrite call_eq. simpl.
  destruct (load_translated t w) as [[c|e] w']; simpl; eauto.
Qed.

(** One pass through the inner [try]: it never raises, and it stores one
    result under the language code. *)
Lemma attempt_spec (source_path language : string)
      (results : pydict language_result) (s : state W) :
  exists s',
    attempt source_path language results s =
    Some (Ok (dict_set language (attempt_result source_path language s) results), s') /\
    trace s' =
    (trace s ++ [EvGenerate source_path language;
                 EvStore language (attempt_result source_path language s)])%list.
Proof.
  unfold attempt, attempt_result, try_except, bind.
  destruct (provider_call_trace source_path language s) as [r [s1 [Hcall Htrace]]].
  rewrite Hcall.
  destruct r as [r|e]; unfold store, bind, emit, ret; simpl;
    eexists; (split; [reflexivity|]); simpl;
    rewrite Htrace, <- app_assoc; reflexivity.
Qed.

(** The loop over a list of language codes: it never raises; it calls the
    provider once per code, in order; it stores one result per code, in
    order; the dictionary it ends with is those assignments applied in
    order. *)
Lemma for_languages_spec (source_path : string) (codes : list string) :
  forall (results : pydict language_result) (s : state W),
  exists results' s' evs,
    for_languages source_path (map JStr codes) results s = Some (Ok results', s') /\
    trace s' = (trace s ++ evs)%list /\
    generated evs = map (pair source_path) codes /\
    map fst (stored evs) = codes /\
    unlinked evs = [] /\
    created evs = [] /\
    results' = apply_writes (stored evs) results.
Proof.
  induction codes as [|code codes IH]; intros results s.
  - exists results, s, []. simpl. rewrite app_nil_r. repeat split; reflexivity.
  - simpl. unfold bind.
    destruct (attempt_spec source_path code results s) as [s1 [Hatt Htr1]].
    rewrite Hatt.
    destruct (IH (dict_set code (attempt_result source_path code s) results) s1)
      as [results' [s' [evs [Hrun [Htr [Hgen [Hst [Hun [Hcr Hres]]]]]]]]].
    exists results', s',
      ([EvGenerate source_path code;
        EvStore code (attempt_result source_path code s)] ++ evs)%list.
    split; [exact Hrun|].
    split; [now rewrite Htr, Htr1, <- app_assoc|].
    rewrite generated_app, stored_app, unlinked_app, created_app. simpl.
    rewrite Hgen, Hst, Hun, Hcr. repeat split. exact Hres.
Qed.

Lemma for_languages_app (source_path : string) (items items' : list json) :
  forall (results : pydict language_result) (s : state W),
    for_languages source_path (items ++ items') results s =
    match for_languages source_path items results s with
    | Some (Ok results', s') => for_languages source_path items' results' s'
    | other => other
    end.
Proof.
  induction items as [|item items IH]; intros results s; simpl.
  - reflexivity.
  - destruct item as [| | | |language| |]; try reflexivity.
    unfold bind. destruct (attempt source_path language results s) as [[[r|e] s1]|];
      [apply IH | reflexivity | reflexivity].
Qed.

(** The [finally] block: it calls [os.unlink] once and never raises,
    whatever [os.unlink] does. *)
Lemma cleanup_spec (source_path : string) (s : state W) :
  exists s',
    cleanup source_path s = Some (Ok tt, s') /\
    trace s' = (trace s ++ [EvUnlink source_path])%list /\
    world s' = snd (unlink source_path (world s)).
Proof.
  unfold cleanup, try_except, bind, emit, ret. rewrite call_eq. simpl.
  destruct (unlink source_path (world s)) as [[[]|e] w]; simpl; eauto.
Qed.

End TranslateFacts.

(** ** The handler as a whole *)

Section HandlerFacts.
Context {W : Type} {P : Platform W}.

(** An accepted request reaches the work after the three checks. *)
Lemma translate_accepted (data content languages : json) (s : state W) :
  accepted data content languages ->
  translate data s =
  try_except (translate_all content languages)
             (fun e => ret (ErrorBody ("Translation failed: " ++ str e), 500)) s.
Proof.
  intros [Htruthy [Hcontent [Hlanguages [Hc Hl]]]].
  destruct (py_get_object _ _ _ _ Hcontent) as [d ->].
  simpl in Hcontent, Hlanguages.
  injection Hcontent as Hcontent. injection Hlanguages as Hlanguages.
  unfold translate, try_except at 1. rewrite Htruthy. cbn [negb].
  unfold bind at 1, lift at 1. cbn [py_get]. rewrite Hcontent.
  unfold bind at 1, lift at 1. rewrite Hlanguages.
  unfold bind at 1, lift at 1. rewrite Hc, Hl. reflexivity.
Qed.



(** Once the source file is written, the handler runs the loop, then the
    [finally] block, and replies from the outcome of the loop. *)
Lemma translate_after_staging (data content languages : json)
      (s : state W) (source_path : string) (s1 s2 : state W)
      (r : result (pydict language_result)) :
  accepted data content languages ->
  staged content s source_path s1 ->
  language_loop source_path languages s1 = Some (r, s2) ->
  exists s3,
    cleanup source_path s2 = Some (Ok tt, s3) /\
    translate data s = Some (Ok (reply_for languages r), s3).
Proof.
  intros Hacc [s0 [Htr Hstage]] Hloop.
  destruct (cleanup_spec source_path s2) as [s3 [Hclean _]].
  exists s3. split; [exact Hclean|].
  rewrite (translate_accepted _ _ _ _ Hacc).
  unfold try_except, translate_all. unfold bind at 1. rewrite Htr.
  unfold bind at 1. rewrite Hstage.
  unfold bind at 1, try_finally.
  rewrite Hloop, Hclean. unfold reply_for.
  destruct r as [results|e]; [|reflexivity].
  unfold bind, lift, ret. destruct (py_len languages); reflexivity.
Qed.


(** An accepted request whose [languages] are language codes, once the
    source file is written: the reply is 200 with the results of the loop
    and their summary; the events since staging are those of the loop and
    one [os.unlink]. *)
Lemma translate_codes (data content languages : json) (codes : list string)
      (s : state W) (source_path : string) (s1 : state W) :
  accepted data content languages ->
  staged content s source_path s1 ->
  py_iter languages = Ok (map JStr codes) ->
  exists results s2 s3 evs,
    for_languages source_path (map JStr codes) [] s1 = Some (Ok results, s2) /\
    translate data s =
    Some (Ok (TranslateBody results (summarize (List.length codes) results), 200), s3) /\
    trace s2 = (trace s1 ++ evs)%list /\
    trace s3 = (trace s1 ++ evs ++ [EvUnlink source_path])%list /\
    generated evs = map (pair source_path) codes /\
    map fst (stored evs) = codes /\
    unlinked evs = [] /\
    results = apply_writes (stored evs) [].
Proof.
  intros Hacc Hstaged Hiter.
  destruct (for_languages_spec source_path codes [] s1)
    as [results [s2 [evs [Hrun [Htr [Hgen [Hst [Hun [_ Hres]]]]]]]]].
  assert (Hloop : language_loop source_path languages s1 = Some (Ok results, s2)).
  { unfold language_loop, bind, lift. now rewrite Hiter. }
  destruct (translate_after_staging _ _ _ _ _ _ _ _ Hacc Hstaged Hloop)
    as [s3 [Hclean Hreply]].
  destruct (cleanup_spec source_path s2) as [s3' [Hclean' [Htr3 _]]].
  rewrite Hclean in Hclean'. injection Hclean' as <-.
  exists results, s2, s3, evs. split; [exact Hrun|].
  split.
  { rewrite Hreply. unfold reply_for.
    now rewrite (py_iter_len _ _ Hiter), length_map. }
  split; [exact Htr|].
  split; [now rewrite Htr3, Htr, <- app_assoc|].
  auto.
Qed.
End HandlerFacts.

(** ** Claims about /translate *)

Section TranslateClaims.
Context {W : Type} {P : Platform W}.

(** C7.  A request whose [content] is empty or whose [languages] is empty is
    answered with status 400 and an error body, so no results are produced;
    the state the handler ends in is the state it started in, so no source
    file was written and the provider was not called.  Empty content (in a
    body that has some key) and empty languages get two different
    messages. *)
Theorem translate_rejects_empty (d : pydict json) (content languages : json)
        (s : state W) :
  py_get (JObj d) "content" (JObj []) = Ok content ->
  py_get (JObj d) "languages" (JArr []) = Ok languages ->
  truthy content = false \/ truthy languages = false ->
  exists message,
    translate (JObj d) s = Some (Ok (ErrorBody message, 400), s) /\
    (d <> [] -> truthy content = false -> message = "No content provided") /\
    (truthy content = true -> message = "No target languages specified") /\
    "No content provided" <> "No target languages specified".
Proof.
  intros Hcontent Hlanguages Hempty. simpl in Hcontent, Hlanguages.
  injection Hcontent as Hcontent. injection Hlanguages as Hlanguages.
  unfold translate, try_except.
  destruct d as [|item d'].
  - simpl. exists "No JSON payload provided".
    split; [reflexivity|]. split; [congruence|]. split; [|discriminate].
    simpl in Hcontent. subst content. discriminate.
  - cbn [truthy negb]. unfold bind at 1, lift at 1. cbn [py_get].
    rewrite Hcontent. unfold bind at 1, lift at 1. rewrite Hlanguages.
    unfold bind at 1, lift at 1.
    destruct (truthy content) eqn:Hc; cbn [negb].
    + destruct Hempty as [Hempty|Hempty]; [discriminate|].
      rewrite Hempty. cbn [negb]. exists "No target languages specified".
      split; [reflexivity|]. split; [discriminate|]. split; [reflexivity|discriminate].
    + exists "No content provided".
      split; [reflexivity|]. split; [reflexivity|]. split; discriminate.
Qed.



(** The two counts of the summary add up to the number of entries of
    [results]. *)
Lemma summarize_counts (total : nat) (results : pydict language_result) :
  successful (summarize total results) + failed (summarize total results) =
  List.length results.
Proof.
  unfold summarize. simpl. rewrite filter_length.
  unfold dict_values. apply length_map.
Qed.

(** C2 (the code departs from the claim).  For an accepted request whose
    source file was written and whose list of language codes has a repeated
    code, [totalLanguages] is the length of the list, while [successful] and
    [failed] are counted over the entries of [results], one per distinct
    code: their sum is smaller than [totalLanguages]. *)
Theorem translate_summary_with_duplicates (data content languages : json)
        (codes : list string) (s : state W) (source_path : string)
        (s1 : state W) :
  accepted data content languages ->
  staged content s source_path s1 ->
  py_iter languages = Ok (map JStr codes) ->
  ~ NoDup codes ->
  exists results sm s3,
    translate data s = Some (Ok (TranslateBody results sm, 200), s3) /\
    totalLanguages sm = List.length codes /\
    successful sm + failed sm < totalLanguages sm.
Proof.
  intros Hacc Hstaged Hiter Hdup.
  destruct (translate_codes _ _ _ _ _ _ _ Hacc Hstaged Hiter)
    as [results [s2 [s3 [evs [Hrun [Hreply [Htr2 [Htr3 [Hgen [Hst [Hun Hres]]]]]]]]]]].
  exists results, (summarize (List.length codes) results), s3.
  split; [exact Hreply|]. split; [reflexivity|].
  rewrite summarize_counts. simpl.
  assert (Hnd : NoDup (dict_keys results)).
  { rewrite Hres. apply apply_writes_keys_NoDup. constructor. }
  assert (Hincl : incl (dict_keys results) codes).
  { intros k Hk. rewrite Hres in Hk. apply apply_writes_keys in Hk.
    destruct Hk as [[]|Hk]. now rewrite Hst in Hk. }
  assert (Hlen : List.length results = List.length (dict_keys results)).
  { unfold dict_keys. now rewrite length_map. }
  destruct (Nat.lt_ge_cases (List.length results) (List.length codes))
    as [Hlt|Hge]; [exact Hlt|].
  exfalso. apply Hdup.
  apply (NoDup_incl_NoDup Hnd); [now rewrite <- Hlen | exact Hincl].
Qed.

(** X13.  For an accepted request over language codes without repetition
    whose source file was written, the summary adds up: [totalLanguages] is
    the number of codes and [successful + failed] is equal to it. *)
Lemma translate_summary_distinct (data content languages : json)
      (codes : list string) (s : state W) (source_path : string)
      (s1 : state W) :
  accepted data content languages ->
  staged content s source_path s1 ->
  py_iter languages = Ok (map JStr codes) ->
  NoDup codes ->
  exists results sm s3,
    translate data s = Some (Ok (TranslateBody results sm, 200), s3) /\
    totalLanguages sm = List.length codes /\
    successful sm + failed sm = totalLanguages sm.
Proof.
  intros Hacc Hstaged Hiter Hnd.
  destruct (translate_codes _ _ _ _ _ _ _ Hacc Hstaged Hiter)
    as [results [s2 [s3 [evs [Hrun [Hreply [Htr2 [Htr3 [Hgen [Hst [Hun Hres]]]]]]]]]]].
  exists results, (summarize (List.length codes) results), s3.
  split; [exact Hreply|]. split; [reflexivity|].
  rewrite summarize_counts. simpl.
  assert (Hkeys : NoDup (dict_keys results)).
  { rewrite Hres. apply apply_writes_keys_NoDup. constructor. }
  assert (Hlen : List.length results = List.length (dict_keys results)).
  { unfold dict_keys. now rewrite length_map. }
  rewrite Hlen. apply Nat.le_antisymm.
  - apply NoDup_incl_length; [exact Hkeys|].
    intros k Hk. rewrite Hres in Hk. apply apply_writes_keys in Hk.
    destruct Hk as [[]|Hk]. now rewrite Hst in Hk.
  - apply NoDup_incl_length; [exact Hnd|].
    intros k Hk. rewrite Hres. apply apply_writes_keys. right. now rewrite Hst.
Qed.
End TranslateClaims.

(** ** The claims on the small platform *)

Lemma two_es_not_NoDup : ~ NoDup ["es"; "es"].
Proof.
  intros H. inversion H as [|x l Hnotin _]. apply Hnotin. now left.
Defined.

Lemma translate_rejects_empty_witness :
  exists message,
    translate (P := demo_platform all_fine)
              (JObj [("content", JObj []); ("languages", JArr [JStr "es"])])
              demo_start =
    Some (Ok (ErrorBody message, 400), demo_start) /\
    message = "No content provided".
Proof.
  destruct (translate_rejects_empty (P := demo_platform all_fine)
              [("content", JObj []); ("languages", JArr [JStr "es"])]
              (JObj []) (JArr [JStr "es"]) demo_start
              eq_refl eq_refl (or_introl eq_refl))
    as [message [Hrun [Hmessage _]]].
  exists message. split; [exact Hrun|].
  apply Hmessage; [discriminate | reflexivity].
Defined.



Lemma translate_summary_with_duplicates_witness :
  exists results sm s3,
    translate (P := demo_platform all_fine) (demo_request ["es"; "es"]) demo_start =
    Some (Ok (TranslateBody results sm, 200), s3) /\
    totalLanguages sm = 2 /\
    successful sm + failed sm < totalLanguages sm.
Proof.
  assert (Hacc : accepted (demo_request ["es"; "es"]) demo_content
                          (demo_languages ["es"; "es"]))
    by (repeat split; reflexivity).
  assert (Hstaged : staged (P := demo_platform all_fine)
                           demo_content demo_start demo_source demo_staged)
    by (eexists; split; reflexivity).
  exact (translate_summary_with_duplicates (P := demo_platform all_fine)
           _ _ _ ["es"; "es"] _ _ _ Hacc Hstaged eq_refl two_es_not_NoDup).
Defined.

(** The reply to [{"content": {"a": "b"}, "languages": ["es", "es"]}] when
    every call succeeds: one entry, and a summary of two languages of which
    one is successful and none failed. *)
Example translate_es_es :
  option_map fst
    (translate (P := demo_platform all_fine) (demo_request ["es"; "es"]) demo_start) =
  Some (Ok (TranslateBody
              [("es", Translated (JObj [("translated_from", JStr "/tmp/app_es.arb")])
                                 "/tmp/app_es.arb")]
              {| totalLanguages := 2; successful := 1; failed := 0 |},
            200)).
Proof. reflexivity. Qed.

(** With the first of the two calls failing, the entry of ["es"] is the
    result of the second. *)
Example translate_es_es_last_wins :
  option_map fst
    (translate (P := demo_platform first_call_fails) (demo_request ["es"; "es"])
               demo_start) =
  Some (Ok (TranslateBody
              [("es", Translated (JObj [("translated_from", JStr "/tmp/app_es.arb")])
                                 "/tmp/app_es.arb")]
              {| totalLanguages := 2; successful := 1; failed := 0 |},
            200)).
Proof. reflexivity. Qed.

(** [languages] is a number: the loop raises [TypeError], the source file is
    removed all the same, and the reply is the 500 of the outer [except]. *)
Example translate_not_iterable :
  translate (P := demo_platform all_fine)
            (JObj [("content", demo_content); ("languages", JInt 5)]) demo_start =
  Some (Ok (ErrorBody "Translation failed: 'int' object is not iterable", 500),
        mk_state (mk_demo_world [] 0) [EvCreate demo_source; EvUnlink demo_source]).
Proof. reflexivity. Qed.

(** A source file that was created and could not be written stays on disk:
    the handler replies 500 and never calls [os.unlink]. *)
Example translate_dump_failure_leaves_file :
  translate (P := demo_platform dump_fails_only) (demo_request ["es"]) demo_start =
  Some (Ok (ErrorBody "Translation failed: [Errno 5] Input/output error", 500),
        mk_state (mk_demo_world [demo_source] 0) [EvCreate demo_source]).
Proof. reflexivity. Qed.

(** * Further properties of /validate *)

Lemma validate_falsy (data : json) :
  truthy data = false ->
  validate data = (ErrorBody "No JSON payload provided", 400).
Proof. intros H. unfold validate, validate_try. now rewrite H. Qed.

Lemma validate_not_object_body (data : json) :
  truthy data = true ->
  (forall d, data <> JObj d) ->
  validate data =
  (ErrorBody ("Validation failed: '" ++ type_name data
              ++ "' object has no attribute 'get'"), 500).
Proof.
  intros Htruthy Hshape. unfold validate, validate_try. rewrite Htruthy. simpl.
  destruct data; try reflexivity. now elim (Hshape d).
Qed.

Lemma filter_none {A : Type} (f : A -> bool) (l : list A) :
  (forall x, In x l -> f x = false) -> filter f l = [].
Proof.
  induction l as [|x l IH]; simpl; [reflexivity|].
  intros H. rewrite (H x) by now left. apply IH. intros y Hy. apply H. now right.
Qed.

Lemma flagged_le_keys (c : pydict json) :
  List.length (filter flagged c) <=
  List.length (filter (fun k => negb (is_metadata k)) (dict_keys c)).
Proof.
  induction c as [|[k v] c IH]; simpl; [lia|].
  unfold flagged at 1. simpl.
  destruct (is_metadata k); simpl; [exact IH|].
  destruct (is_empty_value v); simpl; lia.
Qed.

Lemma dict_has_keys {V : Type} (d : pydict V) (k : string) :
  dict_has d k = existsb (String.eqb k) (dict_keys d).
Proof.
  unfold dict_has. induction d as [|[k' v] d IH]; simpl; [reflexivity|].
  destruct (String.eqb k k'); [reflexivity | exact IH].
Qed.

Lemma empty_value_issues_shape (c c' : pydict json) :
  dict_keys c = dict_keys c' ->
  map is_empty_value (dict_values c) = map is_empty_value (dict_values c') ->
  empty_value_issues c = empty_value_issues c'.
Proof.
  unfold empty_value_issues.
  revert c'. induction c as [|[k v] c IH]; intros [|[k' v'] c']; simpl;
    try discriminate; [reflexivity|].
  intros [= <- Hkeys] [= Hv Hvalues].
  change (flagged (k, v)) with (negb (is_metadata k) && is_empty_value v).
  change (flagged (k, v')) with (negb (is_metadata k) && is_empty_value v').
  rewrite Hv. destruct (negb (is_metadata k) && is_empty_value v'); simpl;
    now rewrite (IH c' Hkeys Hvalues).
Qed.

Lemma filter_flagged_set_metadata (c : pydict json) (k : string) (v : json) :
  is_metadata k = true ->
  filter flagged (dict_set k v c) = filter flagged c.
Proof.
  intros Hmeta. induction c as [|[k' v'] c IH]; simpl.
  - unfold flagged. simpl. now rewrite Hmeta.
  - destruct (String.eqb_spec k k') as [<-|Hne]; simpl.
    + change (flagged (k, v)) with (negb (is_metadata k) && is_empty_value v).
      change (flagged (k, v')) with (negb (is_metadata k) && is_empty_value v').
      now rewrite Hmeta.
    + now rewrite IH.
Qed.

Lemma filter_keys_set_metadata (c : pydict json) (k : string) (v : json) :
  is_metadata k = true ->
  filter (fun key => negb (is_metadata key)) (dict_keys (dict_set k v c)) =
  filter (fun key => negb (is_metadata key)) (dict_keys c).
Proof.
  intros Hmeta. induction c as [|[k' v'] c IH]; simpl.
  - now rewrite Hmeta.
  - destruct (String.eqb_spec k k') as [<-|Hne]; simpl; [reflexivity|].
    fold (dict_keys (dict_set k v c)). fold (dict_keys c). now rewrite IH.
Qed.

(** X1.  The status of the reply of /validate is 400 exactly when the body
    is falsy, 200 exactly when the body is a non-empty object whose content
    (the empty object when the key is missing) is an object, and 500 in
    every other case; the reply carries a report exactly when its status is
    200. *)
Theorem validate_status (data : json) :
  (snd (validate data) = 400 <-> truthy data = false) /\
  (snd (validate data) = 200 <->
   exists d c, data = JObj d /\ d <> [] /\
               py_get data "content" (JObj []) = Ok (JObj c)) /\
  (snd (validate data) = 500 <->
   truthy data = true /\
   forall c, py_get data "content" (JObj []) <> Ok (JObj c)) /\
  (snd (validate data) = 200 <->
   exists valid issues keyCount,
     fst (validate data) = ValidateBody valid issues keyCount).
Proof.
  destruct (truthy data) eqn:Htruthy.
  - destruct (py_get data "content" (JObj [])) as [content|e] eqn:Hget.
    + assert (Hobj : exists d, data = JObj d /\ d <> []).
      { destruct (py_get_object _ _ _ _ Hget) as [d ->]. exists d.
        split; [reflexivity|]. intros ->. discriminate. }
      destruct Hobj as [d [-> Hne]].
      assert (Hcases : (exists c, content = JObj c) \/ (forall c, content <> JObj c)).
      { destruct content; try (right; discriminate). left. eauto. }
      destruct Hcases as [[c ->]|Hshape].
      * rewrite (validate_object _ c Htruthy Hget). simpl.
        repeat split; try discriminate; eauto.
        intros [_ Hno]. now elim (Hno c).
      * rewrite (validate_not_object _ content Htruthy Hget Hshape). simpl.
        repeat split; try discriminate.
        -- intros [d' [c [_ [_ [= Hc]]]]]. now elim (Hshape c).
        -- intros c [= Hc]. now elim (Hshape c).
        -- intros [valid [issues [keyCount H]]]. discriminate H.
    + assert (Hshape : forall d, data <> JObj d).
      { intros d ->. discriminate Hget. }
      rewrite (validate_not_object_body _ Htruthy Hshape). simpl.
      repeat split; try discriminate.
      * intros [d [c [-> _]]]. now elim (Hshape d).
      * intros [valid [issues [keyCount H]]]. discriminate H.
  - rewrite (validate_falsy _ Htruthy). simpl.
    repeat split; try discriminate.
    + intros [d [c [-> [Hne _]]]]. destruct d; [now elim Hne | discriminate].
    + intros [H _]. discriminate H.
    + intros [valid [issues [keyCount H]]]. discriminate H.
Qed.

(** X2.  For a request whose content is an object, the report says [valid]
    exactly when the content has the key [@@locale] and no key that does
    not start with [@] has the empty string or null as its value. *)
Theorem validate_valid_iff (data : json) (c : pydict json) :
  truthy data = true ->
  py_get data "content" (JObj []) = Ok (JObj c) ->
  exists valid issues keyCount,
    validate data = (ValidateBody valid issues keyCount, 200) /\
    (valid = true <->
     dict_has c "@@locale" = true /\
     forall key value, In (key, value) c -> is_metadata key = false ->
                       value <> JStr "" /\ value <> JNull).
Proof.
  intros Htruthy Hcontent.
  eexists _, _, _. split; [apply (validate_object data c); assumption|].
  rewrite Nat.eqb_eq, length_zero_iff_nil. split.
  - intros Hnil. apply app_eq_nil in Hnil. destruct Hnil as [Hloc Hempty].
    split.
    + unfold locale_issues in Hloc.
      destruct (dict_has c "@@locale"); [reflexivity | discriminate].
    + intros key value Hin Hmeta.
      assert (Hno : ~ In (empty_value_issue key) (empty_value_issues c))
        by (rewrite Hempty; simpl; tauto).
      rewrite empty_value_issues_In in Hno.
      split; intros ->; apply Hno; eexists; (split; [exact Hin|]); now split.
  - intros [Hloc Hvalues]. unfold locale_issues. rewrite Hloc. simpl.
    unfold empty_value_issues.
    rewrite filter_none; [reflexivity|].
    intros [k v] Hin. unfold flagged. simpl.
    destruct (is_metadata k) eqn:Hmeta; [reflexivity|]. simpl.
    destruct (is_empty_value v) eqn:Hv; [|reflexivity].
    apply is_empty_value_true in Hv. destruct (Hvalues k v Hin Hmeta). tauto.
Qed.

Lemma validate_valid_iff_witness :
  exists issues keyCount,
    validate (JObj [("content", JObj [("@@locale", JNull); ("title", JInt 0)])]) =
    (ValidateBody true issues keyCount, 200).
Proof.
  destruct (validate_valid_iff
              (JObj [("content", JObj [("@@locale", JNull); ("title", JInt 0)])])
              [("@@locale", JNull); ("title", JInt 0)] eq_refl eq_refl)
    as [valid [issues [keyCount [Hv Hvalid]]]].
  exists issues, keyCount.
  replace valid with true in Hv; [exact Hv|].
  symmetry. apply Hvalid. split; [reflexivity|].
  intros key value [[= <- <-]|[[= <- <-]|[]]] Hmeta;
    [discriminate Hmeta | split; discriminate].
Defined.

(** X3.  For a request whose content is an object, the report has at most
    one issue more than [keyCount], and at most [keyCount] issues when the
    key [@@locale] is present. *)
Theorem validate_issue_bound (data : json) (c : pydict json) :
  truthy data = true ->
  py_get data "content" (JObj []) = Ok (JObj c) ->
  exists valid issues keyCount,
    validate data = (ValidateBody valid issues keyCount, 200) /\
    List.length issues <= 1 + keyCount /\
    (dict_has c "@@locale" = true -> List.length issues <= keyCount).
Proof.
  intros Htruthy Hcontent.
  eexists _, _, _. split; [apply (validate_object data c); assumption|].
  rewrite length_app. unfold empty_value_issues. rewrite length_map.
  pose proof (flagged_le_keys c) as Hle. unfold locale_issues.
  destruct (dict_has c "@@locale"); simpl; split; try discriminate; lia.
Qed.

Lemma validate_issue_bound_witness :
  exists valid issues keyCount,
    validate (JObj [("content", JObj [("a", JStr ""); ("b", JNull)])]) =
    (ValidateBody valid issues keyCount, 200) /\
    List.length issues <= 1 + keyCount.
Proof.
  destruct (validate_issue_bound
              (JObj [("content", JObj [("a", JStr ""); ("b", JNull)])])
              [("a", JStr ""); ("b", JNull)] eq_refl eq_refl)
    as [valid [issues [keyCount [Hv [Hle _]]]]].
  exists valid, issues, keyCount. split; assumption.
Defined.

(** X4.  The report depends only on the keys of the content and on which
    of its values are the empty string or null: two requests whose contents
    have the same keys in the same order, with empty values at the same
    places, get the same reply. *)
Theorem validate_same_shape (data data' : json) (c c' : pydict json) :
  truthy data = true ->
  truthy data' = true ->
  py_get data "content" (JObj []) = Ok (JObj c) ->
  py_get data' "content" (JObj []) = Ok (JObj c') ->
  dict_keys c = dict_keys c' ->
  map is_empty_value (dict_values c) = map is_empty_value (dict_values c') ->
  validate data = validate data'.
Proof.
  intros Ht Ht' Hc Hc' Hkeys Hvalues.
  rewrite (validate_object data c Ht Hc), (validate_object data' c' Ht' Hc').
  unfold locale_issues. rewrite !dict_has_keys, Hkeys.
  now rewrite (empty_value_issues_shape c c' Hkeys Hvalues).
Qed.

Lemma validate_same_shape_witness :
  validate (JObj [("content", JObj [("@@locale", JStr "en"); ("n", JInt 3);
                                     ("t", JStr "")])]) =
  validate (JObj [("content", JObj [("@@locale", JArr []); ("n", JStr "three");
                                     ("t", JNull)]);
                  ("strict", JBool true)]).
Proof.
  apply (validate_same_shape _ _
           [("@@locale", JStr "en"); ("n", JInt 3); ("t", JStr "")]
           [("@@locale", JArr []); ("n", JStr "three"); ("t", JNull)]);
    reflexivity.
Defined.

(** X5.  Setting [@@locale] in a content that lacks it removes the locale
    issue and nothing else: the report of the new content has the issues of
    the old one without the first, and the same [keyCount]. *)
Theorem validate_add_locale (data data' : json) (c : pydict json) (locale : json) :
  truthy data = true ->
  truthy data' = true ->
  py_get data "content" (JObj []) = Ok (JObj c) ->
  py_get data' "content" (JObj []) = Ok (JObj (dict_set "@@locale" locale c)) ->
  dict_get c "@@locale" = None ->
  exists valid issues keyCount,
    validate data = (ValidateBody false (missing_locale :: issues) keyCount, 200) /\
    validate data' = (ValidateBody valid issues keyCount, 200).
Proof.
  intros Ht Ht' Hc Hc' Hmissing.
  rewrite (validate_object data c Ht Hc), (validate_object data' _ Ht' Hc').
  unfold locale_issues, dict_has. rewrite Hmissing, dict_get_set. simpl.
  unfold empty_value_issues.
  rewrite filter_flagged_set_metadata, filter_keys_set_metadata by reflexivity.
  eexists _, _, _. split; reflexivity.
Qed.

Lemma validate_add_locale_witness :
  exists valid issues keyCount,
    validate (JObj [("content", JObj [("a", JStr "")])]) =
    (ValidateBody false (missing_locale :: issues) keyCount, 200) /\
    validate (JObj [("content", JObj [("a", JStr ""); ("@@locale", JStr "en")])]) =
    (ValidateBody valid issues keyCount, 200).
Proof.
  apply (validate_add_locale _ _ [("a", JStr "")] (JStr "en")); reflexivity.
Defined.

(** * Further properties of /translate *)

Section TranslateMore.
Context {W : Type} {P : Platform W}.

(** X6.  The reply and the effects of /translate depend on [content] and
    [languages] alone: two bodies that are non-empty objects and agree on
    these two keys are served alike, state for state.  In particular
    [sourceLanguage] changes nothing. *)
Theorem translate_only_reads_content_and_languages (d d' : pydict json)
        (s : state W) :
  d <> [] ->
  d' <> [] ->
  py_get (JObj d) "content" (JObj []) = py_get (JObj d') "content" (JObj []) ->
  py_get (JObj d) "languages" (JArr []) = py_get (JObj d') "languages" (JArr []) ->
  translate (JObj d) s = translate (JObj d') s.
Proof.
  intros Hd Hd' Hcontent Hlanguages. simpl in Hcontent, Hlanguages.
  injection Hcontent as Hcontent. injection Hlanguages as Hlanguages.
  unfold translate, try_except.
  destruct d as [|item d]; [now elim Hd|].
  destruct d' as [|item' d']; [now elim Hd'|].
  cbn [truthy negb]. unfold bind at 1 4, lift at 1 4. cbn [py_get].
  rewrite Hcontent. unfold bind at 1 3, lift at 1 3. rewrite Hlanguages.
  reflexivity.
Qed.

(** X7.  A body that is truthy and is not an object (a list, a string, a
    number, [true]) is answered with the 500 reply made from the
    [AttributeError] of [data.get]; the handler does nothing else. *)
Theorem translate_non_object_body (data : json) (s : state W) :
  truthy data = true ->
  (forall d, data <> JObj d) ->
  translate data s =
  Some (Ok (ErrorBody ("Translation failed: '" ++ type_name data
                       ++ "' object has no attribute 'get'"), 500), s).
Proof.
  intros Htruthy Hshape. unfold translate, try_except. rewrite Htruthy.
  destruct data; try reflexivity. now elim (Hshape d).
Qed.



(** X11.  For an accepted request whose source file was written, when
    [languages] cannot be iterated (a number, [true]), the reply is the 500
    made from the [TypeError]; the provider is not called, and the source
    file is removed: the only thing done since staging is the one call of
    [os.unlink]. *)
Theorem translate_languages_not_iterable (data content languages : json)
        (s : state W) (source_path : string) (s1 : state W) :
  accepted data content languages ->
  staged content s source_path s1 ->
  (forall l, languages <> JArr l) ->
  (forall code, languages <> JStr code) ->
  (forall d, languages <> JObj d) ->
  exists s3,
    translate data s =
    Some (Ok (ErrorBody ("Translation failed: '" ++ type_name languages
                         ++ "' object is not iterable"), 500), s3) /\
    trace s3 = (trace s1 ++ [EvUnlink source_path])%list.
Proof.
  intros Hacc Hstaged Hl Hs Hd.
  assert (Hiter : py_iter languages = Raise (TypeError_not_iterable languages)).
  { destruct languages; try reflexivity;
      [now elim (Hs s0) | now elim (Hl l) | now elim (Hd d)]. }
  assert (Hloop : language_loop source_path languages s1 =
                  Some (Raise (TypeError_not_iterable languages), s1)).
  { unfold language_loop, bind, lift. now rewrite Hiter. }
  destruct (translate_after_staging _ _ _ _ _ _ _ _ Hacc Hstaged Hloop)
    as [s3 [Hclean Hreply]].
  destruct (cleanup_spec source_path s1) as [s3' [Hclean' [Htr3 _]]].
  rewrite Hclean in Hclean'. injection Hclean' as <-.
  exists s3. split; [exact Hreply | exact Htr3].
Qed.
End TranslateMore.



Section TranslateOrder.
Context {W : Type} {P : Platform W}.




(** X12.  For an accepted request over language codes whose source file was
    written, [results] has exactly one entry per distinct code: its keys
    are without repetition and are the codes of the request; [successful]
    and [failed] add up to the number of entries, which is at most
    [totalLanguages]. *)
Theorem translate_results_keys (data content languages : json)
        (codes : list string) (s : state W) (source_path : string)
        (s1 : state W) :
  accepted data content languages ->
  staged content s source_path s1 ->
  py_iter languages = Ok (map JStr codes) ->
  exists results sm s3,
    translate data s = Some (Ok (TranslateBody results sm, 200), s3) /\
    NoDup (dict_keys results) /\
    (forall code, In code (dict_keys results) <-> In code codes) /\
    successful sm + failed sm = List.length results /\
    List.length results <= totalLanguages sm.
Proof.
  intros Hacc Hstaged Hiter.
  destruct (translate_codes _ _ _ _ _ _ _ Hacc Hstaged Hiter)
    as [results [s2 [s3 [evs [Hrun [Hreply [Htr2 [Htr3 [Hgen [Hst [Hun Hres]]]]]]]]]]].
  exists results, (summarize (List.length codes) results), s3.
  assert (Hnd : NoDup (dict_keys results)).
  { rewrite Hres. apply apply_writes_keys_NoDup. constructor. }
  assert (Hkeys : forall code, In code (dict_keys results) <-> In code codes).
  { intros code. rewrite Hres, apply_writes_keys, Hst. simpl. tauto. }
  split; [exact Hreply|]. split; [exact Hnd|]. split; [exact Hkeys|].
  split; [apply summarize_counts|]. simpl.
  replace (List.length results) with (List.length (dict_keys results))
    by (unfold dict_keys; apply length_map).
  apply NoDup_incl_length; [exact Hnd|]. intros code. apply Hkeys.
Qed.

End TranslateOrder.

(** ** The further properties on the small platform *)

Lemma translate_only_reads_content_and_languages_witness :
  translate (P := demo_platform second_call_fails)
            (JObj [("content", demo_content); ("languages", demo_languages ["es"; "fr"]);
                   ("sourceLanguage", JStr "en")]) demo_start =
  translate (P := demo_platform second_call_fails)
            (JObj [("sourceLanguage", JStr "de"); ("languages", demo_languages ["es"; "fr"]);
                   ("content", demo_content); ("dryRun", JBool true)]) demo_start.
Proof.
  apply (translate_only_reads_content_and_languages
           (P := demo_platform second_call_fails));
    [discriminate | discriminate | reflexivity | reflexivity].
Defined.

Lemma translate_non_object_body_witness :
  translate (P := demo_platform all_fine) (JArr [JInt 1]) demo_start =
  Some (Ok (ErrorBody "Translation failed: 'list' object has no attribute 'get'", 500),
        demo_start).
Proof.
  apply (translate_non_object_body (P := demo_platform all_fine) (JArr [JInt 1]));
    [reflexivity | discriminate].
Defined.



Lemma translate_languages_not_iterable_witness :
  exists s3,
    translate (P := demo_platform all_fine)
              (JObj [("content", demo_content); ("languages", JInt 5)]) demo_start =
    Some (Ok (ErrorBody "Translation failed: 'int' object is not iterable", 500), s3) /\
    trace s3 = [EvCreate demo_source; EvUnlink demo_source].
Proof.
  assert (Hacc : accepted (JObj [("content", demo_content); ("languages", JInt 5)])
                          demo_content (JInt 5))
    by (repeat split; reflexivity).
  assert (Hstaged : staged (P := demo_platform all_fine)
                           demo_content demo_start demo_source demo_staged)
    by (eexists; split; reflexivity).
  exact (translate_languages_not_iterable (P := demo_platform all_fine)
           _ _ (JInt 5) _ _ _ Hacc Hstaged
           ltac:(discriminate) ltac:(discriminate) ltac:(discriminate)).
Defined.

Lemma translate_results_keys_witness :
  exists results sm s3,
    translate (P := demo_platform all_fine) (demo_request ["es"; "fr"; "es"])
              demo_start =
    Some (Ok (TranslateBody results sm, 200), s3) /\
    NoDup (dict_keys results) /\
    successful sm + failed sm = List.length results /\
    List.length results <= totalLanguages sm.
Proof.
  assert (Hacc : accepted (demo_request ["es"; "fr"; "es"]) demo_content
                          (demo_languages ["es"; "fr"; "es"]))
    by (repeat split; reflexivity).
  assert (Hstaged : staged (P := demo_platform all_fine)
                           demo_content demo_start demo_source demo_staged)
    by (eexists; split; reflexivity).
  destruct (translate_results_keys (P := demo_platform all_fine)
              _ _ _ ["es"; "fr"; "es"] _ _ _ Hacc Hstaged eq_refl)
    as [results [sm [s3 [Hrun [Hnd [_ [Hsum Hle]]]]]]].
  exists results, sm, s3. auto.
Defined.

Lemma es_fr_NoDup : NoDup ["es"; "fr"].
Proof.
  constructor; [|constructor; [|constructor]]; simpl; [|tauto].
  intros [H|[]]. discriminate H.
Defined.

Lemma translate_summary_distinct_witness :
  exists results sm s3,
    translate (P := demo_platform second_call_fails) (demo_request ["es"; "fr"])
              demo_start =
    Some (Ok (TranslateBody results sm, 200), s3) /\
    totalLanguages sm = 2 /\
    successful sm + failed sm = totalLanguages sm.
Proof.
  assert (Hacc : accepted (demo_request ["es"; "fr"]) demo_content
                          (demo_languages ["es"; "fr"]))
    by (repeat split; reflexivity).
  assert (Hstaged : staged (P := demo_platform second_call_fails)
                           demo_content demo_start demo_source demo_staged)
    by (eexists; split; reflexivity).
  exact (translate_summary_distinct (P := demo_platform second_call_fails)
           _ _ _ ["es"; "fr"] _ _ _ Hacc Hstaged eq_refl es_fr_NoDup).
Defined.


(** * The translator of the process and /analytics *)

Section SingletonFacts.
Context {T E : Type} {L : Singleton.Library T E}.

Lemma get_translator_set (p : Singleton.process T E) (t : T) :
  Singleton._translator p = Some t ->
  Singleton.get_translator p = (Ok t, p).
Proof. intros H. unfold Singleton.get_translator. now rewrite H. Qed.

Lemma get_translator_ok (p p1 : Singleton.process T E) (t : T) :
  Singleton.get_translator p = (Ok t, p1) ->
  Singleton._translator p1 = Some t.
Proof.
  unfold Singleton.get_translator.
  destruct (Singleton._translator p) as [t0|] eqn:Hslot.
  - intros [= <- <-]. exact Hslot.
  - destruct (Singleton.LocalizationTranslator
                (Singleton.config (Singleton.outside p)) (Singleton.outside p))
      as [[t0|x] e]; intros [= <- <-]. reflexivity.
Qed.

Lemma get_translator_raise (p p1 : Singleton.process T E) (x : exn) :
  Singleton.get_translator p = (Raise x, p1) ->
  Singleton._translator p = None /\
  Singleton._translator p1 = None /\
  Singleton.constructions p1 = S (Singleton.constructions p).
Proof.
  unfold Singleton.get_translator.
  destruct (Singleton._translator p) as [t0|] eqn:Hslot; [discriminate|].
  destruct (Singleton.LocalizationTranslator
              (Singleton.config (Singleton.outside p)) (Singleton.outside p))
    as [[t0|x'] e]; intros [= <- <-]. auto.
Qed.

(** X16.  Two calls of [get_translator] in a row.  When the first returns
    a translator, the second returns the same one and leaves the process as
    it is: nothing is constructed again.  When the first raises, the
    variable [_translator] is still empty, and the second call constructs
    anew. *)
Theorem get_translator_twice (p p1 p2 : Singleton.process T E)
        (r1 r2 : result T) :
  Singleton.get_translator p = (r1, p1) ->
  Singleton.get_translator p1 = (r2, p2) ->
  match r1 with
  | Ok t => Singleton._translator p1 = Some t /\ r2 = Ok t /\ p2 = p1
  | Raise _ =>
      Singleton._translator p1 = None /\
      Singleton.constructions p2 = S (Singleton.constructions p1)
  end.
Proof.
  intros Hfirst Hsecond. destruct r1 as [t|x].
  - pose proof (get_translator_ok _ _ _ Hfirst) as Hslot.
    rewrite (get_translator_set _ _ Hslot) in Hsecond.
    injection Hsecond as <- <-. auto.
  - destruct (get_translator_raise _ _ _ Hfirst) as [_ [Hslot _]].
    split; [exact Hslot|].
    revert Hsecond. unfold Singleton.get_translator. rewrite Hslot.
    destruct (Singleton.LocalizationTranslator
                (Singleton.config (Singleton.outside p1)) (Singleton.outside p1))
      as [[t|x'] e]; intros [= <- <-]; reflexivity.
Qed.

(** X17.  Once [get_translator] has returned a translator, any number of
    requests to /analytics in a row are all answered with status 200 and the
    same figures, and leave the process as it is: the translator is not
    constructed again. *)
Theorem analytics_after_translator (p p1 : Singleton.process T E) (t : T)
        (n : nat) :
  Singleton.get_translator p = (Ok t, p1) ->
  Singleton.serve_analytics n p1 =
  (repeat (Singleton.Analytics 0 Singleton.successRate_095 2500
                               ["openai"; "deepl"] "2024-01-01T00:00:00Z", 200) n,
   p1).
Proof.
  intros Hfirst.
  pose proof (get_translator_set _ _ (get_translator_ok _ _ _ Hfirst)) as Hagain.
  induction n as [|n IH]; simpl; [reflexivity|].
  unfold Singleton.get_analytics. rewrite Hagain, IH. reflexivity.
Qed.

End SingletonFacts.

Lemma get_translator_twice_witness :
  exists p1,
    Singleton.get_translator (L := Singleton.demo_library)
      (Singleton.demo_process [("OPENAI_API_KEY", "sk-1")]) = (Ok (Some "sk-1"), p1) /\
    Singleton.get_translator (L := Singleton.demo_library) p1 = (Ok (Some "sk-1"), p1) /\
    Singleton.constructions p1 = 1.
Proof.
  eexists.
  destruct (get_translator_twice (L := Singleton.demo_library)
              (Singleton.demo_process [("OPENAI_API_KEY", "sk-1")]) _ _ _ _
              eq_refl eq_refl)
    as [_ [_ Hsame]].
  split; [reflexivity|]. split; reflexivity.
Defined.

Lemma analytics_after_translator_witness :
  exists p1,
    Singleton.serve_analytics (L := Singleton.demo_library) 3 p1 =
    (repeat (Singleton.Analytics 0 Singleton.successRate_095 2500
                                 ["openai"; "deepl"] "2024-01-01T00:00:00Z", 200) 3,
     p1) /\
    Singleton.constructions p1 = 1.
Proof.
  eexists. split.
  - exact (analytics_after_translator (L := Singleton.demo_library)
             (Singleton.demo_process []) _ None 3 eq_refl).
  - reflexivity.
Defined.


(** * The loop against the provider *)



Section OutcomeFacts.
Context {W : Type} {P : Platform W}.





Lemma loop_events_unlinked (source_path : string) (codes : list string) :
  forall rs, unlinked (loop_events source_path codes rs) = [].
Proof.
  unfold loop_events.
  induction codes as [|code codes IH]; intros [|r rs]; simpl;
    try reflexivity.
  apply IH.
Qed.




End OutcomeFacts.

Section OutcomeClaims.
Context {W : Type} {P : Platform W}.






End OutcomeClaims.



(** * The two kinds of exception *)

Section KindFacts.
Context {W : Type} {P : Platform W}.







End KindFacts.



